(** * The Whiley-to-C runtime header [lib/wycc_lib.h]

    The header consists of declarations only: one [typedef struct] and five
    function prototypes, between comments.  The development keeps the text of
    the header, reads it with a lexer and a parser for the declaration subset
    of C the header is written in, and states the properties of the
    declarations on the resulting syntax tree. *)

From Stdlib Require Import String Ascii List Bool Arith Lia.
Import ListNotations.
Open Scope string_scope.
Open Scope list_scope.

(** ** The text of the header *)

Module Source.

(** The lines of [lib/wycc_lib.h], without their line terminators.  The last
    line of the file is not terminated. *)
Definition lines : list string :=
  [
    "/*";
    " * wycc_lib.h";
    " *";
    " * This is a a header file that describes the";
    " * library of support routines for programs written in";
    " * the Whiley language when translated into C (ala gcc)";
    " *";
    " * This file is part of the Whiley Development Kit (WDK).";
    " *";
    " * The Whiley Development Kit is free software; you can redistribute ";
    " * it and/or modify it under the terms of the GNU General Public ";
    " * License as published by the Free Software Foundation; either ";
    " * version 3 of the License, or (at your option) any later version.";
    " *";
    " * The Whiley Development Kit is distributed in the hope that it ";
    " * will be useful, but WITHOUT ANY WARRANTY; without even the ";
    " * implied warranty of MERCHANTABILITY or FITNESS FOR A PARTICULAR ";
    " * PURPOSE.  See the GNU General Public License for more details.";
    " *";
    " * You should have received a copy of the GNU General Public ";
    " * License along with the Whiley Development Kit. If not, see ";
    " * <http://www.gnu.org/licenses/>";
    " */";
    "";
    "typedef struct Wycc_object {";
    "    ;";
    "    int typ;";
    "    int cnt;";
    "    void* ptr;";
    "} wycc_obj;";
    "";
    "/*";
    " * routines used by wycc for structure and bookkeeping";
    " */";
    "void wycc_main();";
    "// wycc_obj* wyil_obj_str(char* text);";
    "wycc_obj* wycc_deref_box(wycc_obj* itm, int flg);";
    "wycc_obj* wycc_box_str(char* text);";
    "";
    "/*";
    " * routines to implement wyil operations";
    " */";
    "void wyil_debug_str(char* mesg);";
    "void wyil_debug_obj(wycc_obj *ptr);";
    "";
    "/*";
    ";;; Local Variables: ***";
    ";;; c-basic-offset: 4 ***";
    ";;; End: ***";
    " */"
  ].

Definition newline : ascii := ascii_of_nat 10.

Definition unlines (ls : list string) : string :=
  String.concat (String newline "") ls.

Definition text : string := unlines lines.

(** Lines [a] to [b] of the file, counted from 1. *)
Definition between (a b : nat) : list string :=
  firstn (S b - a) (skipn (a - 1) lines).

End Source.

(** ** Results of fallible passes *)

Inductive result (E A : Type) : Type :=
| Ok (a : A)
| Err (e : E).
Arguments Ok {E A} a.
Arguments Err {E A} e.

Definition bind {E A B} (r : result E A) (k : A -> result E B) : result E B :=
  match r with
  | Ok a => k a
  | Err e => Err e
  end.

Notation "x <- r ;; k" := (bind r (fun x => k))
  (at level 61, r at next level, right associativity).
Notation "' p <- r ;; k" := (bind r (fun x => let p := x in k))
  (at level 61, p pattern, r at next level, right associativity).

(** ** Lexer *)

Inductive token : Type :=
| TWord (w : string)                      (* identifier or keyword *)
| TPunct (c : ascii)                      (* one of { } ( ) ; , * *)
| TComment (block : bool) (body : string) (* block comment or line comment *).

(** A token with the lines of its first and its last character. *)
Record spanned : Type := Spanned
  { first_line : nat; last_line : nat; tok : token }.

Inductive lex_error : Type :=
| BadCharacter (line : nat) (c : ascii)
| UnterminatedComment (line : nat).

Inductive lex_mode : Type :=
| InCode
| InWord (start : nat) (rev_w : list ascii)
| AfterSlash (start : nat)
| InBlock (start : nat) (rev_body : list ascii)
| InBlockStar (start : nat) (rev_body : list ascii)
| InLine (start : nat) (rev_body : list ascii).

Definition in_range (lo hi : nat) (c : ascii) : bool :=
  let n := nat_of_ascii c in Nat.leb lo n && Nat.leb n hi.

Definition is_letter (c : ascii) : bool :=
  in_range 65 90 c || in_range 97 122 c || Ascii.eqb c "_".

Definition is_digit (c : ascii) : bool := in_range 48 57 c.

Definition is_space (c : ascii) : bool :=
  Ascii.eqb c " " || Ascii.eqb c Source.newline
  || Ascii.eqb c (ascii_of_nat 9) || Ascii.eqb c (ascii_of_nat 13).

Definition is_punct (c : ascii) : bool :=
  existsb (Ascii.eqb c) ["{"; "}"; "("; ")"; ";"; ","; "*"]%char.

Definition string_of_rev (rev_cs : list ascii) : string :=
  string_of_list_ascii (rev rev_cs).

(** One character read between tokens. *)
Definition code_step (line : nat) (c : ascii)
  : result lex_error (lex_mode * list spanned) :=
  if is_space c then Ok (InCode, [])
  else if is_letter c then Ok (InWord line [c], [])
  else if Ascii.eqb c "/" then Ok (AfterSlash line, [])
  else if is_punct c then Ok (InCode, [Spanned line line (TPunct c)])
  else Err (BadCharacter line c).

Definition lex_step (line : nat) (m : lex_mode) (c : ascii)
  : result lex_error (lex_mode * list spanned) :=
  match m with
  | InCode => code_step line c
  | InWord start w =>
      if is_letter c || is_digit c then Ok (InWord start (c :: w), [])
      else
        '(m', out) <- code_step line c ;;
        Ok (m', Spanned start line (TWord (string_of_rev w)) :: out)
  | AfterSlash start =>
      if Ascii.eqb c "*" then Ok (InBlock start [], [])
      else if Ascii.eqb c "/" then Ok (InLine start [], [])
      else Err (BadCharacter line c)
  | InBlock start b =>
      if Ascii.eqb c "*" then Ok (InBlockStar start b, [])
      else Ok (InBlock start (c :: b), [])
  | InBlockStar start b =>
      if Ascii.eqb c "/"
      then Ok (InCode, [Spanned start line (TComment true (string_of_rev b))])
      else if Ascii.eqb c "*" then Ok (InBlockStar start ("*"%char :: b), [])
      else Ok (InBlock start (c :: "*"%char :: b), [])
  | InLine start b =>
      if Ascii.eqb c Source.newline
      then Ok (InCode, [Spanned start line (TComment false (string_of_rev b))])
      else Ok (InLine start (c :: b), [])
  end.

(** The end of the text closes a word or a line comment; a block comment
    must have been closed. *)
Definition lex_end (line : nat) (m : lex_mode)
  : result lex_error (list spanned) :=
  match m with
  | InCode => Ok []
  | InWord start w => Ok [Spanned start line (TWord (string_of_rev w))]
  | AfterSlash _ => Err (BadCharacter line "/")
  | InBlock start _ | InBlockStar start _ => Err (UnterminatedComment start)
  | InLine start b => Ok [Spanned start line (TComment false (string_of_rev b))]
  end.

Fixpoint lex_from (line : nat) (m : lex_mode) (s : string)
  : result lex_error (list spanned) :=
  match s with
  | EmptyString => lex_end line m
  | String c rest =>
      '(m', out) <- lex_step line m c ;;
      ts <- lex_from (if Ascii.eqb c Source.newline then S line else line)
                     m' rest ;;
      Ok (out ++ ts)
  end.

Definition lex (s : string) : result lex_error (list spanned) :=
  lex_from 1 InCode s.

(** ** Syntax of the declarations *)

Inductive ctype : Type :=
| Void
| Int
| Char
| Named (name : string)   (* a typedef name *)
| Ptr (target : ctype).

(** An entry of a struct's member list: a field, or an empty declaration
    (a semicolon with nothing before it). *)
Inductive member : Type :=
| MField (ty : ctype) (name : string)
| MEmpty.

Record param : Type := Param { p_type : ctype; p_name : option string }.

(** [f()] gives no prototype; [f(void)] is [Prototyped []]. *)
Inductive params : Type :=
| Unprototyped
| Prototyped (ps : list param).

Record typedef_struct : Type := TypedefStruct
  { td_tag : string; td_members : list member; td_name : string }.

(** A function declarator; [fn_body] is [None] for a prototype closed by a
    semicolon and holds the tokens between the braces for a definition. *)
Record fundecl : Type := FunDecl
  { fn_ret : ctype;
    fn_name : string;
    fn_params : params;
    fn_body : option (list token) }.

Inductive item : Type :=
| IComment (block : bool) (body : string)
| ITypedef (td : typedef_struct)
| IFunction (f : fundecl).

(** ** Parser *)

(** [Strict] follows the grammar of ISO C (C90 6.5.2.1, C99 6.7.2.1), where
    every struct-declaration has a specifier-qualifier-list and a declarator
    before its semicolon and a struct has at least one; [Lenient] accepts an
    empty declaration among the members, as gcc and clang do. *)
Inductive dialect : Type := Strict | Lenient.

Inductive parse_error : Type :=
| Lexical (e : lex_error)
| UnexpectedEnd
| Unexpected (line : nat) (t : token)
| UnknownType (line : nat) (w : string)
| EmptyStructDeclaration (line : nat)
| NoMembers (line : nat)
| OutOfFuel.

Definition keywords : list string :=
  ["auto"; "break"; "case"; "char"; "const"; "continue"; "default"; "do";
   "double"; "else"; "enum"; "extern"; "float"; "for"; "goto"; "if";
   "inline"; "int"; "long"; "register"; "restrict"; "return"; "short";
   "signed"; "sizeof"; "static"; "struct"; "switch"; "typedef"; "union";
   "unsigned"; "void"; "volatile"; "while"].

Definition mem (w : string) (ws : list string) : bool :=
  existsb (String.eqb w) ws.

Definition is_punct_tok (c : ascii) (t : spanned) : bool :=
  match tok t with
  | TPunct d => Ascii.eqb c d
  | _ => false
  end.

Definition is_word_tok (w : string) (t : spanned) : bool :=
  match tok t with
  | TWord v => String.eqb w v
  | _ => false
  end.

Definition unexpected {A} (t : spanned) : result parse_error A :=
  Err (Unexpected (first_line t) (tok t)).

Definition expect_punct (c : ascii) (ts : list spanned)
  : result parse_error (list spanned) :=
  match ts with
  | [] => Err UnexpectedEnd
  | t :: r => if is_punct_tok c t then Ok r else unexpected t
  end.

Definition expect_word (w : string) (ts : list spanned)
  : result parse_error (list spanned) :=
  match ts with
  | [] => Err UnexpectedEnd
  | t :: r => if is_word_tok w t then Ok r else unexpected t
  end.

Definition identifier (ts : list spanned)
  : result parse_error (string * list spanned) :=
  match ts with
  | [] => Err UnexpectedEnd
  | t :: r =>
      match tok t with
      | TWord w => if mem w keywords then unexpected t else Ok (w, r)
      | _ => unexpected t
      end
  end.

(** [env] holds the typedef names declared so far. *)
Definition type_specifier (env : list string) (ts : list spanned)
  : result parse_error (ctype * list spanned) :=
  match ts with
  | [] => Err UnexpectedEnd
  | t :: r =>
      match tok t with
      | TWord w =>
          if String.eqb w "void" then Ok (Void, r)
          else if String.eqb w "int" then Ok (Int, r)
          else if String.eqb w "char" then Ok (Char, r)
          else if mem w keywords then unexpected t
          else if mem w env then Ok (Named w, r)
          else Err (UnknownType (first_line t) w)
      | _ => unexpected t
      end
  end.

Fixpoint pointers (t : ctype) (ts : list spanned) : ctype * list spanned :=
  match ts with
  | s :: r => if is_punct_tok "*" s then pointers (Ptr t) r else (t, ts)
  | [] => (t, ts)
  end.

(** A type specifier, stars, and the declared name. *)
Definition declaration_head (env : list string) (ts : list spanned)
  : result parse_error (ctype * string * list spanned) :=
  '(base, r) <- type_specifier env ts ;;
  let '(ty, r1) := pointers base r in
  '(name, r2) <- identifier r1 ;;
  Ok (ty, name, r2).

Fixpoint members (d : dialect) (env : list string) (fuel : nat)
    (ts : list spanned) : result parse_error (list member * list spanned) :=
  match fuel with
  | 0 => Err OutOfFuel
  | S fuel =>
      match ts with
      | [] => Err UnexpectedEnd
      | t :: r =>
          if is_punct_tok "}" t then Ok ([], r)
          else if is_punct_tok ";" t then
            match d with
            | Strict => Err (EmptyStructDeclaration (first_line t))
            | Lenient =>
                '(ms, r') <- members d env fuel r ;;
                Ok (MEmpty :: ms, r')
            end
          else
            '(ty, name, r1) <- declaration_head env ts ;;
            r2 <- expect_punct ";" r1 ;;
            '(ms, r3) <- members d env fuel r2 ;;
            Ok (MField ty name :: ms, r3)
      end
  end.

Definition fields (ms : list member) : list (string * ctype) :=
  flat_map (fun m => match m with
                     | MField ty name => [(name, ty)]
                     | MEmpty => []
                     end) ms.

(** After the word [typedef]. *)
Definition typedef (d : dialect) (env : list string) (ts : list spanned)
  : result parse_error (typedef_struct * list spanned) :=
  r <- expect_word "struct" ts ;;
  '(tag, r1) <- identifier r ;;
  r2 <- expect_punct "{" r1 ;;
  '(ms, r3) <- members d env (length r2) r2 ;;
  match d, ms, r1 with
  | Strict, [], brace :: _ => Err (NoMembers (first_line brace))
  | _, _, _ =>
      '(name, r4) <- identifier r3 ;;
      r5 <- expect_punct ";" r4 ;;
      Ok (TypedefStruct tag ms name, r5)
  end.

Definition parameter (env : list string) (ts : list spanned)
  : result parse_error (param * list spanned) :=
  '(base, r) <- type_specifier env ts ;;
  let '(ty, r1) := pointers base r in
  match identifier r1 with
  | Ok (name, r2) => Ok (Param ty (Some name), r2)
  | Err _ => Ok (Param ty None, r1)
  end.

Fixpoint parameter_list (env : list string) (fuel : nat) (ts : list spanned)
  : result parse_error (list param * list spanned) :=
  match fuel with
  | 0 => Err OutOfFuel
  | S fuel =>
      '(p, r) <- parameter env ts ;;
      match r with
      | [] => Err UnexpectedEnd
      | t :: r' =>
          if is_punct_tok ")" t then Ok ([p], r')
          else if is_punct_tok "," t then
            '(ps, r'') <- parameter_list env fuel r' ;;
            Ok (p :: ps, r'')
          else unexpected t
      end
  end.

(** After the opening parenthesis. *)
Definition parameters (env : list string) (ts : list spanned)
  : result parse_error (params * list spanned) :=
  match ts with
  | [] => Err UnexpectedEnd
  | t :: r =>
      if is_punct_tok ")" t then Ok (Unprototyped, r)
      else
        match r with
        | t' :: r' =>
            if is_word_tok "void" t && is_punct_tok ")" t'
            then Ok (Prototyped [], r')
            else
              '(ps, rest) <- parameter_list env (length ts) ts ;;
              Ok (Prototyped ps, rest)
        | [] => Err UnexpectedEnd
        end
  end.

(** The tokens of a compound statement, after its opening brace and up to
    the brace that closes it; [depth] counts the braces open inside. *)
Fixpoint compound (depth : nat) (ts : list spanned)
  : result parse_error (list token * list spanned) :=
  match ts with
  | [] => Err UnexpectedEnd
  | t :: r =>
      if is_punct_tok "}" t then
        match depth with
        | 0 => Ok ([], r)
        | S depth' =>
            '(b, r') <- compound depth' r ;; Ok (tok t :: b, r')
        end
      else
        '(b, r') <- compound (if is_punct_tok "{" t then S depth else depth) r ;;
        Ok (tok t :: b, r')
  end.

Definition function (env : list string) (ts : list spanned)
  : result parse_error (fundecl * list spanned) :=
  '(ret, name, r) <- declaration_head env ts ;;
  r1 <- expect_punct "(" r ;;
  '(ps, r2) <- parameters env r1 ;;
  match r2 with
  | [] => Err UnexpectedEnd
  | t :: r3 =>
      if is_punct_tok ";" t then Ok (FunDecl ret name ps None, r3)
      else if is_punct_tok "{" t then
        '(b, r4) <- compound 0 r3 ;;
        Ok (FunDecl ret name ps (Some b), r4)
      else unexpected t
  end.

Fixpoint translation_unit (d : dialect) (env : list string) (fuel : nat)
    (ts : list spanned) : result parse_error (list item) :=
  match fuel with
  | 0 => Err OutOfFuel
  | S fuel =>
      match ts with
      | [] => Ok []
      | t :: r =>
          match tok t with
          | TComment b body =>
              items <- translation_unit d env fuel r ;;
              Ok (IComment b body :: items)
          | _ =>
              if is_word_tok "typedef" t then
                '(td, r') <- typedef d env r ;;
                items <- translation_unit d (td_name td :: env) fuel r' ;;
                Ok (ITypedef td :: items)
              else
                '(f, r') <- function env ts ;;
                items <- translation_unit d env fuel r' ;;
                Ok (IFunction f :: items)
          end
      end
  end.

Definition parse (d : dialect) (s : string) : result parse_error (list item) :=
  match lex s with
  | Err e => Err (Lexical e)
  | Ok ts => translation_unit d [] (S (length ts)) ts
  end.

(** ** The declarations of [wycc_lib.h] *)

(** Lines 25 to 30: the member list of [struct Wycc_object]. *)
Definition Wycc_object : list member :=
  [ MEmpty;
    MField Int "typ";
    MField Int "cnt";
    MField (Ptr Void) "ptr" ].

Definition wycc_obj : typedef_struct :=
  {| td_tag := "Wycc_object"; td_members := Wycc_object; td_name := "wycc_obj" |}.

(** Line 35: [void wycc_main();] *)
Definition wycc_main : fundecl :=
  {| fn_ret := Void;
     fn_name := "wycc_main";
     fn_params := Unprototyped;
     fn_body := None |}.

(** Line 37: [wycc_obj* wycc_deref_box(wycc_obj* itm, int flg);] *)
Definition wycc_deref_box : fundecl :=
  {| fn_ret := Ptr (Named "wycc_obj");
     fn_name := "wycc_deref_box";
     fn_params := Prototyped [ Param (Ptr (Named "wycc_obj")) (Some "itm");
                               Param Int (Some "flg") ];
     fn_body := None |}.

(** Line 38: [wycc_obj* wycc_box_str(char* text);] *)
Definition wycc_box_str : fundecl :=
  {| fn_ret := Ptr (Named "wycc_obj");
     fn_name := "wycc_box_str";
     fn_params := Prototyped [ Param (Ptr Char) (Some "text") ];
     fn_body := None |}.

(** Line 43: [void wyil_debug_str(char* mesg);] *)
Definition wyil_debug_str : fundecl :=
  {| fn_ret := Void;
     fn_name := "wyil_debug_str";
     fn_params := Prototyped [ Param (Ptr Char) (Some "mesg") ];
     fn_body := None |}.

(** Line 44: [void wyil_debug_obj(wycc_obj *ptr);] *)
Definition wyil_debug_obj : fundecl :=
  {| fn_ret := Void;
     fn_name := "wyil_debug_obj";
     fn_params := Prototyped [ Param (Ptr (Named "wycc_obj")) (Some "ptr") ];
     fn_body := None |}.

(** The text between the delimiters of the block comment whose inner lines
    are [inner]: the opening delimiter ends its line and the closing one
    follows a space on a line of its own. *)
Definition block_body (inner : list string) : string :=
  Source.unlines ("" :: inner ++ [" "]).

Definition bookkeeping_heading : string :=
  block_body [" * routines used by wycc for structure and bookkeeping"].

Definition wyil_heading : string :=
  block_body [" * routines to implement wyil operations"].

(** The header, item by item. *)
Definition wycc_lib_h : list item :=
  [ IComment true (block_body (Source.between 2 22));
    ITypedef wycc_obj;
    IComment true bookkeeping_heading;
    IFunction wycc_main;
    IComment false " wycc_obj* wyil_obj_str(char* text);";
    IFunction wycc_deref_box;
    IFunction wycc_box_str;
    IComment true wyil_heading;
    IFunction wyil_debug_str;
    IFunction wyil_debug_obj;
    IComment true (block_body (Source.between 47 49)) ].

(** ** Queries on a translation unit *)

Definition functions (u : list item) : list fundecl :=
  flat_map (fun i => match i with IFunction f => [f] | _ => [] end) u.

Definition typedefs (u : list item) : list typedef_struct :=
  flat_map (fun i => match i with ITypedef td => [td] | _ => [] end) u.

Definition function_names (u : list item) : list string :=
  map fn_name (functions u).

Definition lookup_function (name : string) (u : list item) : option fundecl :=
  find (fun f => String.eqb (fn_name f) name) (functions u).

Definition lookup_typedef (name : string) (u : list item)
  : option typedef_struct :=
  find (fun td => String.eqb (td_name td) name) (typedefs u).

(** The fields of the struct a typedef name stands for, in order. *)
Definition struct_fields (name : string) (u : list item)
  : option (list (string * ctype)) :=
  option_map (fun td => fields (td_members td)) (lookup_typedef name u).

(** What an item defines, as opposed to declares: a struct type, a typedef
    name, or a function (when it has a body). *)
Inductive definition : Type :=
| DStruct (tag : string)
| DTypedef (name : string)
| DFunction (name : string).

Definition defines (i : item) : list definition :=
  match i with
  | IComment _ _ => []
  | ITypedef td => [DStruct (td_tag td); DTypedef (td_name td)]
  | IFunction f =>
      match fn_body f with
      | Some _ => [DFunction (fn_name f)]
      | None => []
      end
  end.

Definition control_keywords : list string :=
  ["break"; "case"; "continue"; "default"; "do"; "else"; "for"; "goto";
   "if"; "return"; "switch"; "while"].

Definition is_control (t : token) : bool :=
  match t with
  | TWord w => mem w control_keywords
  | _ => false
  end.

Definition is_brace (t : token) : bool :=
  match t with
  | TPunct c => Ascii.eqb c "{" || Ascii.eqb c "}"
  | _ => false
  end.

(** *** Lines *)

Inductive line_kind : Type := Blank | Comment | Declaration.

Definition line_kind_eqb (a b : line_kind) : bool :=
  match a, b with
  | Blank, Blank | Comment, Comment | Declaration, Declaration => true
  | _, _ => false
  end.

Definition covers (n : nat) (t : spanned) : bool :=
  Nat.leb (first_line t) n && Nat.leb n (last_line t).

Definition is_comment (t : spanned) : bool :=
  match tok t with
  | TComment _ _ => true
  | _ => false
  end.

(** A line that carries a token of a declaration is a declaration line; any
    other line inside a comment is a comment line; the rest is blank. *)
Definition classify (ts : list spanned) (n : nat) : line_kind :=
  if existsb (fun t => covers n t && negb (is_comment t)) ts then Declaration
  else if existsb (fun t => covers n t && is_comment t) ts then Comment
  else Blank.

Definition line_kinds (ls : list string) : result lex_error (list line_kind) :=
  ts <- lex (Source.unlines ls) ;;
  Ok (map (classify ts) (seq 1 (length ls))).

Definition count_kind (k : line_kind) (ks : list line_kind) : nat :=
  length (filter (line_kind_eqb k) ks).

(** *** Sections *)

(** Each function with the block comment that heads its section: the last
    block comment before it.  Line comments do not open a section. *)
Fixpoint sections (heading : option string) (u : list item)
  : list (option string * string) :=
  match u with
  | [] => []
  | IComment true body :: r => sections (Some body) r
  | IComment false _ :: r => sections heading r
  | ITypedef _ :: r => sections heading r
  | IFunction f :: r => (heading, fn_name f) :: sections heading r
  end.

(** The part of a symbol up to and including its first underscore. *)
Fixpoint symbol_prefix (s : string) : string :=
  match s with
  | EmptyString => EmptyString
  | String c r =>
      if Ascii.eqb c "_" then String c EmptyString
      else String c (symbol_prefix r)
  end.

(** *** Calls *)

Fixpoint ctype_eqb (a b : ctype) : bool :=
  match a, b with
  | Void, Void | Int, Int | Char, Char => true
  | Named n, Named m => String.eqb n m
  | Ptr a', Ptr b' => ctype_eqb a' b'
  | _, _ => false
  end.

Definition arithmetic (t : ctype) : bool :=
  match t with
  | Int | Char => true
  | _ => false
  end.

(** Whether an argument of type [from] may be passed for a parameter of type
    [to] (C99 6.5.16.1): equal types, two arithmetic types, or a pointer
    to [void] against any other pointer. *)
Definition assignable (to from : ctype) : bool :=
  ctype_eqb to from
  || (arithmetic to && arithmetic from)
  || match to, from with
     | Ptr Void, Ptr _ | Ptr _, Ptr Void => true
     | _, _ => false
     end.

Fixpoint all2 {A B} (p : A -> B -> bool) (l : list A) (m : list B) : bool :=
  match l, m with
  | [], [] => true
  | a :: l', b :: m' => p a b && all2 p l' m'
  | _, _ => false
  end.

(** Whether a call with arguments of types [args] satisfies the constraints
    of a declarator (C99 6.5.2.2): with a prototype, the arguments agree in
    number with the parameters and each is assignable to its parameter;
    without one, the declaration constrains nothing. *)
Definition call_accepted (ps : params) (args : list ctype) : bool :=
  match ps with
  | Unprototyped => true
  | Prototyped l => all2 assignable (map p_type l) args
  end.

(** The lines of a file without its line [n], counted from 1. *)
Definition without_line (n : nat) (ls : list string) : list string :=
  firstn (n - 1) ls ++ skipn n ls.

Record line_counts : Type := LineCounts
  { blank_lines : nat; comment_lines : nat; declaration_lines : nat }.

Definition count_lines (ls : list string) : result lex_error line_counts :=
  ks <- line_kinds ls ;;
  Ok (LineCounts (count_kind Blank ks) (count_kind Comment ks)
                 (count_kind Declaration ks)).

(** A typedef with the empty declarations taken out of its member list. *)
Definition drop_empty (i : item) : item :=
  match i with
  | ITypedef td =>
      ITypedef {| td_tag := td_tag td;
                  td_members := filter (fun m => match m with
                                                 | MEmpty => false
                                                 | MField _ _ => true
                                                 end) (td_members td);
                  td_name := td_name td |}
  | _ => i
  end.

(** The header declares [n] function symbols, all different. *)
Definition declares_exactly (n : nat) (u : list item) : Prop :=
  NoDup (function_names u) /\ length (function_names u) = n.

(** The return type of a declarator and, when it has a prototype, the
    types of its parameters. *)
Definition signature (f : fundecl) : ctype * option (list ctype) :=
  (fn_ret f,
   match fn_params f with
   | Unprototyped => None
   | Prototyped ps => Some (map p_type ps)
   end).

(** The declaration of [name] as the parser reads it from the text. *)
Definition declared (name : string) : option fundecl :=
  match parse Lenient Source.text with
  | Ok u => lookup_function name u
  | Err _ => None
  end.

(** The fields of the struct behind the typedef [name], read from the text. *)
Definition declared_fields (name : string) : option (list (string * ctype)) :=
  match parse Lenient Source.text with
  | Ok u => struct_fields name u
  | Err _ => None
  end.

(** The tokens of the text that are not comments. *)
Definition code_tokens (s : string) : list spanned :=
  match lex s with
  | Ok ts => filter (fun t => negb (is_comment t)) ts
  | Err _ => []
  end.

(** *** Scoping *)

(** The typedef names a type mentions. *)
Fixpoint named_in (t : ctype) : list string :=
  match t with
  | Named n => [n]
  | Ptr t' => named_in t'
  | Void | Int | Char => []
  end.

Definition param_types (ps : params) : list ctype :=
  match ps with
  | Unprototyped => []
  | Prototyped l => map p_type l
  end.

Definition member_types (ms : list member) : list ctype :=
  map snd (fields ms).

(** The types an item is written with. *)
Definition item_types (i : item) : list ctype :=
  match i with
  | IComment _ _ => []
  | ITypedef td => member_types (td_members td)
  | IFunction f => fn_ret f :: param_types (fn_params f)
  end.

Definition scoped (env : list string) (t : ctype) : bool :=
  forallb (fun n => mem n env) (named_in t).

(** Every typedef name is declared by an earlier item: [env] holds the
    names in scope at the start, and a typedef brings its name into scope
    for the items after it. *)
Fixpoint declared_before_use (env : list string) (u : list item) : bool :=
  match u with
  | [] => true
  | i :: r =>
      forallb (scoped env) (item_types i)
      && declared_before_use
           (match i with ITypedef td => td_name td :: env | _ => env end) r
  end.

(** *** Shapes of types *)

Fixpoint pointer_depth (t : ctype) : nat :=
  match t with
  | Ptr t' => S (pointer_depth t')
  | _ => 0
  end.

Fixpoint pointee (t : ctype) : ctype :=
  match t with
  | Ptr t' => pointee t'
  | _ => t
  end.

(** *** Preprocessing *)

(** A directive is a line whose first character after blanks is [#]. *)
Fixpoint is_directive (l : string) : bool :=
  match l with
  | EmptyString => false
  | String c r =>
      if Ascii.eqb c " " || Ascii.eqb c (ascii_of_nat 9) then is_directive r
      else Ascii.eqb c "#"
  end.

(** The lines of a file that includes the header [n] times and has nothing
    else. *)
Fixpoint included (n : nat) : list string :=
  match n with
  | 0 => []
  | S n' => Source.lines ++ included n'
  end.

(** *** The declaration in the comment of line 36 *)




(** *** Names *)

Definition param_names (ps : params) : list string :=
  match ps with
  | Unprototyped => []
  | Prototyped l =>
      flat_map (fun p => match p_name p with Some n => [n] | None => [] end) l
  end.

(** The ordinary identifiers a unit declares at file scope: typedef names
    and functions (struct tags have a name space of their own). *)
Definition ordinary_identifiers (u : list item) : list string :=
  flat_map (fun i => match i with
                     | IComment _ _ => []
                     | ITypedef td => [td_name td]
                     | IFunction f => [fn_name f]
                     end) u.

Fixpoint distinct (l : list string) : bool :=
  match l with
  | [] => true
  | a :: r => negb (mem a r) && distinct r
  end.

(** *** Characters *)

Definition printable (c : ascii) : bool := in_range 32 126 c.

Definition last_chars (n : nat) (s : string) : string :=
  substring (String.length s - n) n s.

(** At least [num] in [den] of the lines of a file carry no declaration
    (they lie in comments or are blank). *)
Definition share_without_declaration (num den : nat) (ls : list string)
  : Prop :=
  exists c,
    count_lines ls = Ok c /\
    num * length ls <= den * (blank_lines c + comment_lines c).

(** * Properties *)

(** ** The embedding agrees with the text *)

Lemma lex_header_ok : exists ts, lex Source.text = Ok ts /\ length ts = 65.
Proof. eexists; split; vm_compute; reflexivity. Qed.

Lemma wycc_lib_h_parsed : parse Lenient Source.text = Ok wycc_lib_h.
Proof. vm_compute. reflexivity. Qed.

(** ** General facts about the queries *)

Section Queries.

Variable u : list item.

Lemma in_functions (f : fundecl) : In f (functions u) <-> In (IFunction f) u.
Proof.
  unfold functions. rewrite in_flat_map. split.
  - intros [i [Hi Hf]]. destruct i; simpl in Hf; try contradiction.
    destruct Hf as [-> | []]. exact Hi.
  - intros H. exists (IFunction f). split; [exact H | now left].
Qed.

Lemma lookup_function_sound (name : string) (f : fundecl) :
  lookup_function name u = Some f ->
  In (IFunction f) u /\ fn_name f = name.
Proof.
  unfold lookup_function. intros H.
  apply find_some in H. destruct H as [Hin Heq].
  split.
  - now apply in_functions.
  - now apply String.eqb_eq.
Qed.

Lemma sections_cover (h : option string) :
  map snd (sections h u) = function_names u.
Proof.
  unfold function_names, functions. revert h.
  induction u as [| i r IH]; intros h; simpl.
  - reflexivity.
  - destruct i as [[|] body | td | f]; simpl; rewrite ?IH; reflexivity.
Qed.

Lemma no_body_defines_no_function :
  Forall (fun f => fn_body f = None) (functions u) ->
  forall name, ~ In (DFunction name) (flat_map defines u).
Proof.
  intros Hall name Hin.
  apply in_flat_map in Hin. destruct Hin as [i [Hi Hd]].
  destruct i as [b body | td | f]; simpl in Hd.
  - contradiction.
  - destruct Hd as [Hd | [Hd | []]]; discriminate Hd.
  - rewrite Forall_forall in Hall.
    rewrite (Hall f) in Hd by now apply in_functions.
    contradiction.
Qed.

End Queries.

Lemma symbol_prefix_is_prefix (s : string) :
  String.prefix (symbol_prefix s) s = true.
Proof.
  induction s as [| c r IH]; simpl.
  - reflexivity.
  - destruct (Ascii.eqb c "_"); simpl;
      destruct (ascii_dec c c) as [_ | Hc]; try (now elim Hc).
    + now destruct r.
    + exact IH.
Qed.

(** ** General facts about the parser *)

(** Under the strict grammar a member list holds fields only. *)
Lemma members_strict_fields (env : list string) (fuel : nat) :
  forall ts ms r,
    members Strict env fuel ts = Ok (ms, r) -> ~ In MEmpty ms.
Proof.
  induction fuel as [| fuel IH]; intros ts ms r H; simpl in H.
  - discriminate.
  - destruct ts as [| t ts']; [discriminate |].
    destruct (is_punct_tok "}" t).
    + injection H as <- _. intros [].
    + destruct (is_punct_tok ";" t); [discriminate |].
      destruct (declaration_head env (t :: ts')) as [[[ty name] r1] | e];
        simpl in H; [| discriminate].
      destruct (expect_punct ";" r1) as [r2 | e]; simpl in H; [| discriminate].
      destruct (members Strict env fuel r2) as [[ms' r3] | e] eqn:Hrec;
        simpl in H; [| discriminate].
      injection H as <- _.
      intros [Hm | Hm]; [discriminate |].
      exact (IH _ _ _ Hrec Hm).
Qed.

(** ** General facts about calls *)

Lemma unprototyped_unconstrained (f : fundecl) (args : list ctype) :
  fn_params f = Unprototyped -> call_accepted (fn_params f) args = true.
Proof. intros ->. reflexivity. Qed.

Lemma void_prototype_takes_nothing (args : list ctype) :
  call_accepted (Prototyped []) args = true <-> args = [].
Proof.
  destruct args; simpl; split; intros H; try reflexivity; discriminate.
Qed.

(** ** The declarations *)

(** C1, as stated, fails: the function symbols of the header are not four. *)
Lemma four_function_symbols_refuted : ~ declares_exactly 4 wycc_lib_h.
Proof.
  intros [_ Hlen]. vm_compute in Hlen. discriminate Hlen.
Qed.

(** C1, amended: the header declares exactly five function symbols, in the
    four roles the specification lists: the initialization entry point
    [wycc_main], the deref/unbox operation [wycc_deref_box], the string
    boxer [wycc_box_str], and the two debug-printing hooks [wyil_debug_str]
    and [wyil_debug_obj]; each has the signature stated for it, and no other
    function symbol is declared. *)
Theorem five_function_symbols :
  declares_exactly 5 wycc_lib_h /\
  functions wycc_lib_h =
    [wycc_main; wycc_deref_box; wycc_box_str; wyil_debug_str; wyil_debug_obj] /\
  map (fun f => (fn_name f, signature f)) (functions wycc_lib_h) =
    [ ("wycc_main",      (Void, None));
      ("wycc_deref_box", (Ptr (Named "wycc_obj"),
                          Some [Ptr (Named "wycc_obj"); Int]));
      ("wycc_box_str",   (Ptr (Named "wycc_obj"), Some [Ptr Char]));
      ("wyil_debug_str", (Void, Some [Ptr Char]));
      ("wyil_debug_obj", (Void, Some [Ptr (Named "wycc_obj")])) ] /\
  parse Lenient Source.text = Ok wycc_lib_h.
Proof.
  split; [split |].
  - change (function_names wycc_lib_h)
      with ["wycc_main"; "wycc_deref_box"; "wycc_box_str";
            "wyil_debug_str"; "wyil_debug_obj"].
    repeat (constructor; [simpl; intuition discriminate |]).
    constructor.
  - reflexivity.
  - split; [reflexivity |]. split; [reflexivity |].
    exact wycc_lib_h_parsed.
Qed.

(** C2: the type [wycc_obj] is a struct with exactly three fields, in this
    order: [typ], an [int]; [cnt], an [int]; and [ptr], a [void*].  There
    is no other field. *)
Theorem wycc_obj_three_fields :
  declared_fields "wycc_obj" =
    Some [("typ", Int); ("cnt", Int); ("ptr", Ptr Void)] /\
  lookup_typedef "wycc_obj" wycc_lib_h = Some wycc_obj /\
  td_tag wycc_obj = "Wycc_object" /\
  struct_fields "wycc_obj" wycc_lib_h =
    Some [("typ", Int); ("cnt", Int); ("ptr", Ptr Void)] /\
  option_map (@length _) (struct_fields "wycc_obj" wycc_lib_h) = Some 3 /\
  typedefs wycc_lib_h = [wycc_obj].
Proof.
  split.
  - unfold declared_fields. rewrite wycc_lib_h_parsed. reflexivity.
  - repeat split.
Qed.

(** C3: [wycc_deref_box] is declared with two parameters, a pointer to
    [wycc_obj] named [itm] and an [int] named [flg], and returns a pointer
    to [wycc_obj]. *)
Theorem wycc_deref_box_signature :
  declared "wycc_deref_box" = Some wycc_deref_box /\
  lookup_function "wycc_deref_box" wycc_lib_h = Some wycc_deref_box /\
  signature wycc_deref_box =
    (Ptr (Named "wycc_obj"), Some [Ptr (Named "wycc_obj"); Int]) /\
  fn_params wycc_deref_box =
    Prototyped [Param (Ptr (Named "wycc_obj")) (Some "itm");
                Param Int (Some "flg")] /\
  lookup_typedef "wycc_obj" wycc_lib_h = Some wycc_obj.
Proof.
  split.
  - unfold declared. rewrite wycc_lib_h_parsed. reflexivity.
  - repeat split.
Qed.

(** C4: [wycc_box_str] is declared with a single parameter of type [char*]
    and returns a pointer to [wycc_obj]. *)
Theorem wycc_box_str_signature :
  declared "wycc_box_str" = Some wycc_box_str /\
  lookup_function "wycc_box_str" wycc_lib_h = Some wycc_box_str /\
  signature wycc_box_str = (Ptr (Named "wycc_obj"), Some [Ptr Char]) /\
  fn_params wycc_box_str = Prototyped [Param (Ptr Char) (Some "text")].
Proof.
  split.
  - unfold declared. rewrite wycc_lib_h_parsed. reflexivity.
  - repeat split.
Qed.

(** C5: [wyil_debug_str] and [wyil_debug_obj] are both declared returning
    [void]; [wyil_debug_str] takes a [char*] (named [mesg]) and
    [wyil_debug_obj] takes a pointer to [wycc_obj] (named [ptr]). *)
Theorem wyil_debug_signatures :
  declared "wyil_debug_str" = Some wyil_debug_str /\
  declared "wyil_debug_obj" = Some wyil_debug_obj /\
  lookup_function "wyil_debug_str" wycc_lib_h = Some wyil_debug_str /\
  lookup_function "wyil_debug_obj" wycc_lib_h = Some wyil_debug_obj /\
  signature wyil_debug_str = (Void, Some [Ptr Char]) /\
  signature wyil_debug_obj = (Void, Some [Ptr (Named "wycc_obj")]) /\
  fn_params wyil_debug_str = Prototyped [Param (Ptr Char) (Some "mesg")] /\
  fn_params wyil_debug_obj =
    Prototyped [Param (Ptr (Named "wycc_obj")) (Some "ptr")].
Proof.
  unfold declared. rewrite wycc_lib_h_parsed. repeat split.
Qed.

(** C6: the header is declaration-only.  No function it declares has a
    body, so no item defines a function; no token outside the comments is a
    control-flow keyword, and the only braces are those of the struct.  What
    the header defines is the struct [Wycc_object] and the typedef name
    [wycc_obj]. *)
Theorem declaration_only :
  Forall (fun f => fn_body f = None) (functions wycc_lib_h) /\
  (forall name, ~ In (DFunction name) (flat_map defines wycc_lib_h)) /\
  flat_map defines wycc_lib_h = [DStruct "Wycc_object"; DTypedef "wycc_obj"] /\
  existsb (fun t => is_control (tok t)) (code_tokens Source.text) = false /\
  map first_line (filter (fun t => is_brace (tok t)) (code_tokens Source.text))
    = [25; 30].
Proof.
  assert (Hbody : Forall (fun f => fn_body f = None) (functions wycc_lib_h))
    by (repeat constructor).
  split; [exact Hbody |].
  split; [exact (no_body_defines_no_function wycc_lib_h Hbody) |].
  split; [reflexivity |].
  split; vm_compute; reflexivity.
Qed.

Lemma count_lines_header :
  count_lines Source.lines =
    Ok {| blank_lines := 4; comment_lines := 35; declaration_lines := 11 |}.
Proof. vm_compute. reflexivity. Qed.

(** C7, as stated, fails: the lines that are comments or blank are not
    nearly all of the file.  They are not even four in five of its lines:
    more than one line in five carries a declaration. *)
Lemma nearly_all_comments_refuted :
  ~ share_without_declaration 4 5 Source.lines.
Proof.
  intros [c [Hc Hshare]].
  rewrite count_lines_header in Hc. injection Hc as <-.
  change (length Source.lines) with 50 in Hshare.
  simpl in Hshare. lia.
Qed.

(** C7, amended: the file has 50 lines (49 line terminators and a last line
    without one).  Of them 35 lie in comments and 4 are blank, and 11 carry
    a declaration: the lines that are comments or blank are 39 of 50, at
    least three quarters of the file and fewer than four fifths of it. *)
Theorem header_line_counts :
  length Source.lines = 50 /\
  (exists c,
    count_lines Source.lines = Ok c /\
    c = {| blank_lines := 4; comment_lines := 35; declaration_lines := 11 |} /\
    blank_lines c + comment_lines c + declaration_lines c
      = length Source.lines /\
    3 * length Source.lines <= 4 * (blank_lines c + comment_lines c) /\
    5 * (blank_lines c + comment_lines c) < 4 * length Source.lines) /\
  share_without_declaration 3 4 Source.lines.
Proof.
  split; [reflexivity |].
  split.
  - exists (LineCounts 4 35 11).
    split; [exact count_lines_header |].
    split; [reflexivity |].
    change (length Source.lines) with 50. simpl. lia.
  - exists (LineCounts 4 35 11).
    split; [exact count_lines_header |].
    change (length Source.lines) with 50. simpl. lia.
Qed.

(** C8: [wycc_main] is declared returning [void] with empty parentheses,
    not [(void)]: it has no prototype, so a call with any arguments meets
    the constraints of the declaration, where [(void)] would accept a call
    without arguments only. *)
Theorem wycc_main_unprototyped :
  declared "wycc_main" = Some wycc_main /\
  lookup_function "wycc_main" wycc_lib_h = Some wycc_main /\
  nth_error Source.lines 34 = Some "void wycc_main();" /\
  fn_ret wycc_main = Void /\
  fn_params wycc_main = Unprototyped /\
  fn_params wycc_main <> Prototyped [] /\
  (forall args, call_accepted (fn_params wycc_main) args = true) /\
  call_accepted (Prototyped []) [Int] = false.
Proof.
  split.
  { unfold declared. rewrite wycc_lib_h_parsed. reflexivity. }
  do 4 (split; [reflexivity |]).
  split; [discriminate |].
  split; [| reflexivity].
  intros args. now apply unprototyped_unconstrained.
Qed.

(** C9: the member list of [struct Wycc_object] opens with an empty
    declaration, the lone semicolon of line 26.  The strict ISO grammar
    rejects the header at that line and nowhere else (without line 26 it
    accepts the header, with the same three fields); only the lenient
    grammar accepts the header as it is. *)
Theorem stray_semicolon_in_struct :
  nth_error Source.lines 25 = Some "    ;" /\
  lookup_typedef "wycc_obj" wycc_lib_h = Some wycc_obj /\
  hd_error (td_members wycc_obj) = Some MEmpty /\
  parse Strict Source.text = Err (EmptyStructDeclaration 26) /\
  parse Lenient Source.text = Ok wycc_lib_h /\
  parse Strict (Source.unlines (without_line 26 Source.lines))
    = Ok (map drop_empty wycc_lib_h) /\
  struct_fields "wycc_obj" (map drop_empty wycc_lib_h)
    = struct_fields "wycc_obj" wycc_lib_h.
Proof.
  do 3 (split; [reflexivity |]).
  split; [vm_compute; reflexivity |].
  split; [exact wycc_lib_h_parsed |].
  split; [vm_compute; reflexivity | reflexivity].
Qed.

(** C10: every function symbol of the header starts with [wycc_] or with
    [wyil_], as the header groups them: the three functions under the
    comment on the routines used by wycc for structure and bookkeeping
    start with [wycc_], the two under the comment on the routines that
    implement wyil operations start with [wyil_], and every declared
    function is in one of the two groups. *)
Theorem symbol_prefixes :
  sections None wycc_lib_h =
    [ (Some bookkeeping_heading, "wycc_main");
      (Some bookkeeping_heading, "wycc_deref_box");
      (Some bookkeeping_heading, "wycc_box_str");
      (Some wyil_heading, "wyil_debug_str");
      (Some wyil_heading, "wyil_debug_obj") ] /\
  map snd (sections None wycc_lib_h) = function_names wycc_lib_h /\
  Forall (fun hn =>
            (fst hn = Some bookkeeping_heading /\
             symbol_prefix (snd hn) = "wycc_") \/
            (fst hn = Some wyil_heading /\
             symbol_prefix (snd hn) = "wyil_"))
         (sections None wycc_lib_h) /\
  Forall (fun n => String.prefix "wycc_" n = true \/
                   String.prefix "wyil_" n = true)
         (function_names wycc_lib_h) /\
  nodup string_dec (map symbol_prefix (function_names wycc_lib_h))
    = ["wycc_"; "wyil_"] /\
  nth_error Source.lines 32 =
    Some " * routines used by wycc for structure and bookkeeping" /\
  nth_error Source.lines 40 = Some " * routines to implement wyil operations".
Proof.
  split; [reflexivity |].
  split; [apply sections_cover |].
  split.
  { repeat constructor; simpl;
      solve [left; split; reflexivity | right; split; reflexivity]. }
  split.
  { repeat constructor; simpl; solve [now left | now right]. }
  repeat split.
Qed.

(** * Further properties of the header *)

(** ** Scoping of typedef names *)

Section Scoping.

Variable env : list string.

Lemma type_specifier_scoped (ts r : list spanned) (t : ctype) :
  type_specifier env ts = Ok (t, r) -> scoped env t = true.
Proof.
  unfold type_specifier. destruct ts as [| s ts']; [discriminate |].
  destruct (tok s) as [w | c | b body]; try discriminate.
  destruct (String.eqb w "void"); [intros [= <- _]; reflexivity |].
  destruct (String.eqb w "int"); [intros [= <- _]; reflexivity |].
  destruct (String.eqb w "char"); [intros [= <- _]; reflexivity |].
  destruct (mem w keywords); [discriminate |].
  destruct (mem w env) eqn:Hw; [| discriminate].
  intros [= <- _]. unfold scoped. simpl. now rewrite Hw.
Qed.

Lemma pointers_scoped (ts : list spanned) :
  forall t, scoped env t = true -> scoped env (fst (pointers t ts)) = true.
Proof.
  induction ts as [| s ts' IH]; intros t Ht; simpl.
  - exact Ht.
  - destruct (is_punct_tok "*" s).
    + apply IH. exact Ht.
    + exact Ht.
Qed.

Lemma declaration_head_scoped (ts r : list spanned) (t : ctype) (n : string) :
  declaration_head env ts = Ok (t, n, r) -> scoped env t = true.
Proof.
  unfold declaration_head.
  destruct (type_specifier env ts) as [[base r0] | e] eqn:Hbase;
    simpl; [| discriminate].
  pose proof (pointers_scoped r0 base (type_specifier_scoped _ _ _ Hbase))
    as Hp.
  destruct (pointers base r0) as [ty r1].
  destruct (identifier r1) as [[name r2] | e]; simpl; [| discriminate].
  intros [= <- _ _]. exact Hp.
Qed.

Lemma members_scoped (d : dialect) (fuel : nat) :
  forall ts ms r,
    members d env fuel ts = Ok (ms, r) ->
    forallb (scoped env) (member_types ms) = true.
Proof.
  induction fuel as [| fuel IH]; intros ts ms r H; simpl in H.
  - discriminate.
  - destruct ts as [| t ts']; [discriminate |].
    destruct (is_punct_tok "}" t).
    { injection H as <- _. reflexivity. }
    destruct (is_punct_tok ";" t).
    { destruct d; [discriminate |].
      destruct (members Lenient env fuel ts') as [[ms' r'] | e] eqn:Hrec;
        simpl in H; [| discriminate].
      injection H as <- _. exact (IH _ _ _ Hrec). }
    destruct (declaration_head env (t :: ts')) as [[[ty name] r1] | e] eqn:Hh;
      simpl in H; [| discriminate].
    destruct (expect_punct ";" r1) as [r2 | e]; simpl in H; [| discriminate].
    destruct (members d env fuel r2) as [[ms' r3] | e] eqn:Hrec;
      simpl in H; [| discriminate].
    injection H as <- _.
    change (scoped env ty && forallb (scoped env) (member_types ms') = true).
    rewrite (declaration_head_scoped _ _ _ _ Hh), (IH _ _ _ Hrec).
    reflexivity.
Qed.

Lemma typedef_scoped (d : dialect) (ts r : list spanned) (td : typedef_struct) :
  typedef d env ts = Ok (td, r) ->
  forallb (scoped env) (member_types (td_members td)) = true.
Proof.
  unfold typedef.
  destruct (expect_word "struct" ts) as [r0 | e]; simpl; [| discriminate].
  destruct (identifier r0) as [[tag r1] | e]; simpl; [| discriminate].
  destruct (expect_punct "{" r1) as [r2 | e]; simpl; [| discriminate].
  destruct (members d env (length r2) r2) as [[ms r3] | e] eqn:Hm;
    simpl; [| discriminate].
  apply members_scoped in Hm.
  assert (Hend :
    (name_r <- identifier r3 ;;
     (let '(name, r4) := name_r in
      r5 <- expect_punct ";" r4 ;; Ok (TypedefStruct tag ms name, r5)))
      = Ok (td, r) ->
    forallb (scoped env) (member_types (td_members td)) = true).
  { destruct (identifier r3) as [[name r4] | e]; simpl; [| discriminate].
    destruct (expect_punct ";" r4) as [r5 | e]; simpl; [| discriminate].
    intros [= <- _]. exact Hm. }
  destruct d; [| exact Hend].
  destruct ms as [| m ms']; [| exact Hend].
  destruct r1 as [| brace r1']; [exact Hend | discriminate].
Qed.

Lemma parameter_scoped (ts r : list spanned) (p : param) :
  parameter env ts = Ok (p, r) -> scoped env (p_type p) = true.
Proof.
  unfold parameter.
  destruct (type_specifier env ts) as [[base r0] | e] eqn:Hbase;
    simpl; [| discriminate].
  pose proof (pointers_scoped r0 base (type_specifier_scoped _ _ _ Hbase))
    as Hp.
  destruct (pointers base r0) as [ty r1].
  destruct (identifier r1) as [[name r2] | e]; intros [= <- _]; exact Hp.
Qed.

Lemma parameter_list_scoped (fuel : nat) :
  forall ts ps r,
    parameter_list env fuel ts = Ok (ps, r) ->
    forallb (scoped env) (map p_type ps) = true.
Proof.
  induction fuel as [| fuel IH]; intros ts ps r H; simpl in H.
  - discriminate.
  - destruct (parameter env ts) as [[p r0] | e] eqn:Hp;
      simpl in H; [| discriminate].
    apply parameter_scoped in Hp.
    destruct r0 as [| t r']; [discriminate |].
    destruct (is_punct_tok ")" t).
    { injection H as <- _. simpl. now rewrite Hp. }
    destruct (is_punct_tok "," t); [| discriminate].
    destruct (parameter_list env fuel r') as [[ps' r''] | e] eqn:Hrec;
      simpl in H; [| discriminate].
    injection H as <- _. simpl. now rewrite Hp, (IH _ _ _ Hrec).
Qed.

Lemma parameters_scoped (ts r : list spanned) (ps : params) :
  parameters env ts = Ok (ps, r) ->
  forallb (scoped env) (param_types ps) = true.
Proof.
  unfold parameters. destruct ts as [| t r0]; [discriminate |].
  destruct (is_punct_tok ")" t); [intros [= <- _]; reflexivity |].
  destruct r0 as [| t' r']; [discriminate |].
  destruct (is_word_tok "void" t && is_punct_tok ")" t');
    [intros [= <- _]; reflexivity |].
  destruct (parameter_list env (length (t :: t' :: r')) (t :: t' :: r'))
    as [[ps' rest] | e] eqn:Hl; simpl; [| discriminate].
  intros [= <- _]. exact (parameter_list_scoped _ _ _ _ Hl).
Qed.

Lemma function_scoped (ts r : list spanned) (f : fundecl) :
  function env ts = Ok (f, r) ->
  forallb (scoped env) (item_types (IFunction f)) = true.
Proof.
  unfold function.
  destruct (declaration_head env ts) as [[[ret name] r0] | e] eqn:Hh;
    simpl; [| discriminate].
  apply declaration_head_scoped in Hh.
  destruct (expect_punct "(" r0) as [r1 | e]; simpl; [| discriminate].
  destruct (parameters env r1) as [[ps r2] | e] eqn:Hps; simpl; [| discriminate].
  apply parameters_scoped in Hps.
  destruct r2 as [| t r3]; [discriminate |].
  destruct (is_punct_tok ";" t).
  { intros [= <- _]. simpl. now rewrite Hh, Hps. }
  destruct (is_punct_tok "{" t); [| discriminate].
  destruct (compound 0 r3) as [[b r4] | e]; simpl; [| discriminate].
  intros [= <- _]. simpl. now rewrite Hh, Hps.
Qed.

End Scoping.

(** Whatever the parser accepts uses its typedef names after their
    declaration only. *)
Lemma translation_unit_scoped (d : dialect) (fuel : nat) :
  forall env ts u,
    translation_unit d env fuel ts = Ok u -> declared_before_use env u = true.
Proof.
  induction fuel as [| fuel IH]; intros env ts u H; simpl in H.
  - discriminate.
  - destruct ts as [| t r].
    { injection H as <-. reflexivity. }
    assert (Hdecl :
      (if is_word_tok "typedef" t
       then
         td_r <- typedef d env r ;;
         (let '(td, r') := td_r in
          items <- translation_unit d (td_name td :: env) fuel r' ;;
          Ok (ITypedef td :: items))
       else
         f_r <- function env (t :: r) ;;
         (let '(f, r') := f_r in
          items <- translation_unit d env fuel r' ;;
          Ok (IFunction f :: items))) = Ok u ->
      declared_before_use env u = true).
    { destruct (is_word_tok "typedef" t).
      - destruct (typedef d env r) as [[td r'] | e] eqn:Htd;
          simpl; [| discriminate].
        destruct (translation_unit d (td_name td :: env) fuel r')
          as [items | e] eqn:Hrec; simpl; [| discriminate].
        intros [= <-]. simpl.
        now rewrite (typedef_scoped _ _ _ _ _ Htd), (IH _ _ _ Hrec).
      - destruct (function env (t :: r)) as [[f r'] | e] eqn:Hf;
          simpl; [| discriminate].
        destruct (translation_unit d env fuel r') as [items | e] eqn:Hrec;
          simpl; [| discriminate].
        intros [= <-].
        change (forallb (scoped env) (item_types (IFunction f))
                && declared_before_use env items = true).
        now rewrite (function_scoped _ _ _ _ Hf), (IH _ _ _ Hrec). }
    destruct (tok t) as [w | c | b body]; try exact (Hdecl H).
    destruct (translation_unit d env fuel r) as [items | e] eqn:Hrec;
      simpl in H; [| discriminate].
    injection H as <-. simpl. exact (IH _ _ _ Hrec).
Qed.

Lemma parse_scoped (d : dialect) (s : string) (u : list item) :
  parse d s = Ok u -> declared_before_use [] u = true.
Proof.
  unfold parse. destruct (lex s) as [ts | e]; [| discriminate].
  apply translation_unit_scoped.
Qed.

(** ** Repeated definitions *)

Lemma repeated_twice {A} (l : list A) (a : A) : In a l -> ~ NoDup (l ++ l).
Proof.
  intros Hin Hnd.
  destruct (in_split _ _ Hin) as [l1 [l2 ->]].
  rewrite app_assoc in Hnd.
  apply NoDup_remove_2 in Hnd.
  apply Hnd. rewrite !in_app_iff. left. left. right. now left.
Qed.

(** A unit that defines something and is followed by a copy of itself
    defines it twice. *)
Lemma defined_twice (u : list item) (d : definition) :
  In d (flat_map defines u) -> ~ NoDup (flat_map defines (u ++ u)).
Proof.
  intros Hin. rewrite flat_map_app. exact (repeated_twice _ _ Hin).
Qed.

Lemma distinct_NoDup (l : list string) : distinct l = true <-> NoDup l.
Proof.
  induction l as [| a r IH]; simpl.
  - split; [constructor | reflexivity].
  - rewrite andb_true_iff, negb_true_iff, NoDup_cons_iff, IH.
    assert (Hmem : mem a r = false <-> ~ In a r).
    { unfold mem. rewrite <- not_true_iff_false, existsb_exists.
      split; intros H.
      - intros Hin. apply H. exists a. split; [exact Hin | apply String.eqb_refl].
      - intros [x [Hx Heq]]. apply String.eqb_eq in Heq. now subst x. }
    now rewrite Hmem.
Qed.

(** ** The header *)

(** X1: the header has no preprocessing directive, hence no include guard:
    a translation unit that includes it twice is read as the declarations
    of the header twice over, and defines [struct Wycc_object] and the
    typedef name [wycc_obj] twice, where one inclusion defines each once. *)
Theorem no_include_guard :
  filter is_directive Source.lines = [] /\
  parse Lenient (Source.unlines (included 1)) = Ok wycc_lib_h /\
  parse Lenient (Source.unlines (included 2)) = Ok (wycc_lib_h ++ wycc_lib_h) /\
  NoDup (flat_map defines wycc_lib_h) /\
  ~ NoDup (flat_map defines (wycc_lib_h ++ wycc_lib_h)).
Proof.
  split; [reflexivity |].
  split; [vm_compute; reflexivity |].
  split; [vm_compute; reflexivity |].
  split.
  - change (NoDup [DStruct "Wycc_object"; DTypedef "wycc_obj"]).
    repeat (constructor; [simpl; intuition discriminate |]). constructor.
  - apply (defined_twice wycc_lib_h (DStruct "Wycc_object")).
    simpl. now left.
Qed.

(** X2: the header is self-contained: starting with no typedef name in
    scope, every type name it uses is declared by an earlier item.  The only
    typedef name it uses is [wycc_obj], in four places, and the order
    matters: with lines 25 to 30 moved behind the prototypes, the first use
    of [wycc_obj] is rejected as an unknown type. *)
Theorem typedef_before_use :
  declared_before_use [] wycc_lib_h = true /\
  flat_map named_in (flat_map item_types wycc_lib_h)
    = ["wycc_obj"; "wycc_obj"; "wycc_obj"; "wycc_obj"] /\
  parse Lenient
    (Source.unlines (Source.between 31 50 ++ Source.between 24 30))
    = Err (UnknownType 7 "wycc_obj") /\
  nth_error (Source.between 31 50) 6
    = Some "wycc_obj* wycc_deref_box(wycc_obj* itm, int flg);".
Proof.
  split; [exact (parse_scoped _ _ _ wycc_lib_h_parsed) |].
  split; [reflexivity |].
  split; [vm_compute; reflexivity | reflexivity].
Qed.

(** X3: a [wycc_obj] crosses the interface by pointer only: every return or
    parameter type built on [wycc_obj] is a pointer to it, one level deep,
    and no type of the header has a pointer to a pointer.  The struct itself
    mentions no typedef name: its payload is untyped and it does not refer
    to itself. *)
Theorem wycc_obj_by_pointer :
  Forall (fun t => pointee t = Named "wycc_obj" -> pointer_depth t = 1)
         (flat_map (fun f => item_types (IFunction f)) (functions wycc_lib_h)) /\
  Forall (fun t => pointer_depth t <= 1) (flat_map item_types wycc_lib_h) /\
  flat_map named_in (member_types Wycc_object) = [] /\
  lookup_typedef "wycc_obj" wycc_lib_h = Some wycc_obj.
Proof.
  split.
  { repeat (apply Forall_cons; [simpl; intros H; reflexivity || discriminate H |]).
    apply Forall_nil. }
  split.
  { repeat (apply Forall_cons; [simpl; lia |]). apply Forall_nil. }
  split; reflexivity.
Qed.


(** X5: the names of the header do not clash: the fields of the struct
    have different names, so have the parameters within each prototype and
    the identifiers declared at file scope (the typedef name and the five
    functions), and the struct's tag differs from its typedef name. *)
Theorem names_distinct :
  NoDup (map fst (fields Wycc_object)) /\
  Forall (fun f => NoDup (param_names (fn_params f))) (functions wycc_lib_h) /\
  NoDup (ordinary_identifiers wycc_lib_h) /\
  td_tag wycc_obj <> td_name wycc_obj.
Proof.
  split; [now apply distinct_NoDup |].
  split.
  { repeat (apply Forall_cons; [now apply distinct_NoDup |]). apply Forall_nil. }
  split; [now apply distinct_NoDup | discriminate].
Qed.

(** X6: the text of the header is printable ASCII with line feeds as the
    only control characters (no tab, no carriage return), no line is longer
    than 69 characters, and the file does not end in a line feed: it has 49
    of them and its last characters close the comment of lines 46 to 50. *)
Theorem text_characters :
  forallb (fun c => printable c || Ascii.eqb c Source.newline)
          (list_ascii_of_string Source.text) = true /\
  forallb (fun l => Nat.leb (String.length l) 69) Source.lines = true /\
  length (filter (Ascii.eqb Source.newline) (list_ascii_of_string Source.text))
    = 49 /\
  last_chars 3 Source.text = " */".
Proof.
  repeat split; vm_compute; reflexivity.
Qed.
